(** * pyrasterframes.rf_ipython: notebook rendering of tiles and dataframes

    A shallow embedding of [rf_ipython.py] (tile_to_png, tile_to_html and
    pandas_df_to_html) together with the properties its specification
    states about them.

    Conventions of the embedding:
    - Python [bytes] are [list byte]; Python [str] is a Rocq [string]
      holding the UTF-8 encoding of the text.
    - A Python call that may raise returns a [result]; code that reads or
      writes the process-wide pandas options runs in the state monad [M].
    - Python floats are IEEE 754 binary64 values ([spec_float] with the
      operations of [SpecFloat] at precision 53).
    - matplotlib and pandas' own table renderers are not part of this
      module; they are the methods of the classes [Matplotlib] and
      [Pandas]. *)

From Stdlib Require Import NArith ZArith QArith Qabs List Lia.
From Stdlib.Floats Require Import SpecFloat.
From Stdlib.Strings Require Import String Ascii Byte.
From stdpp Require Import gmap strings list pretty.

Local Open Scope string_scope.
Local Open Scope list_scope.

(** ** Python exceptions and fallible results *)

Inductive exn : Type :=
  | TypeError
  | KeyError
  | IndexError
  | OptionError
  | ValueError
  | UnicodeDecodeError
  | OverflowError
  | ZeroDivisionError
  | BackendError (msg : string).

Inductive result (A : Type) : Type :=
  | Ok (a : A)
  | Raise (e : exn).
Arguments Ok {A} a.
Arguments Raise {A} e.

Definition rbind {A B} (r : result A) (k : A -> result B) : result B :=
  match r with
  | Ok a => k a
  | Raise e => Raise e
  end.

Definition rmap {A B} (f : A -> B) (r : result A) : result B :=
  rbind r (fun a => Ok (f a)).

(** ** base64.b64encode (RFC 4648, standard alphabet, no line breaks) *)

Module Base64.

Definition alphabet : list byte :=
  list_byte_of_string
    "ABCDEFGHIJKLMNOPQRSTUVWXYZabcdefghijklmnopqrstuvwxyz0123456789+/".

Definition pad : byte := x3d.

Definition sextet_char (i : N) : byte := nth (N.to_nat i) alphabet pad.

Definition group3 (a b c : byte) : list byte :=
  let n := (Byte.to_N a * 65536 + Byte.to_N b * 256 + Byte.to_N c)%N in
  [ sextet_char (n / 262144);
    sextet_char ((n / 4096) mod 64);
    sextet_char ((n / 64) mod 64);
    sextet_char (n mod 64) ].

Definition group2 (a b : byte) : list byte :=
  let n := ((Byte.to_N a * 256 + Byte.to_N b) * 4)%N in
  [ sextet_char (n / 4096);
    sextet_char ((n / 64) mod 64);
    sextet_char (n mod 64);
    pad ].

Definition group1 (a : byte) : list byte :=
  let n := (Byte.to_N a * 16)%N in
  [ sextet_char (n / 64); sextet_char (n mod 64); pad; pad ].

Fixpoint b64encode (bs : list byte) : list byte :=
  match bs with
  | [] => []
  | [a] => group1 a
  | [a; b] => group2 a b
  | a :: b :: c :: rest => group3 a b c ++ b64encode rest
  end.

(** The decoder the round-trip law is stated against: strict RFC 4648
    decoding, padding accepted in the last group only. *)

Fixpoint index_of (c : byte) (tbl : list byte) : option N :=
  match tbl with
  | [] => None
  | x :: t => if Byte.eqb c x then Some 0%N else option_map N.succ (index_of c t)
  end.

Definition sextet_of_char (c : byte) : option N := index_of c alphabet.

Definition obind {A B} (o : option A) (k : A -> option B) : option B :=
  match o with
  | Some a => k a
  | None => None
  end.

Definition ungroup3 (c0 c1 c2 c3 : byte) : option (list byte) :=
  obind (sextet_of_char c0) (fun s0 =>
  obind (sextet_of_char c1) (fun s1 =>
  obind (sextet_of_char c2) (fun s2 =>
  obind (sextet_of_char c3) (fun s3 =>
  let n := (s0 * 262144 + s1 * 4096 + s2 * 64 + s3)%N in
  obind (Byte.of_N (n / 65536)) (fun a =>
  obind (Byte.of_N ((n / 256) mod 256)) (fun b =>
  obind (Byte.of_N (n mod 256)) (fun c =>
  Some [a; b; c]))))))).

Definition ungroup2 (c0 c1 c2 : byte) : option (list byte) :=
  obind (sextet_of_char c0) (fun s0 =>
  obind (sextet_of_char c1) (fun s1 =>
  obind (sextet_of_char c2) (fun s2 =>
  let n := ((s0 * 4096 + s1 * 64 + s2) / 4)%N in
  obind (Byte.of_N (n / 256)) (fun a =>
  obind (Byte.of_N (n mod 256)) (fun b =>
  Some [a; b]))))).

Definition ungroup1 (c0 c1 : byte) : option (list byte) :=
  obind (sextet_of_char c0) (fun s0 =>
  obind (sextet_of_char c1) (fun s1 =>
  obind (Byte.of_N ((s0 * 64 + s1) / 16)) (fun a =>
  Some [a]))).

Definition unlast (c0 c1 c2 c3 : byte) : option (list byte) :=
  if Byte.eqb c3 pad then
    if Byte.eqb c2 pad then ungroup1 c0 c1 else ungroup2 c0 c1 c2
  else ungroup3 c0 c1 c2 c3.

Fixpoint b64decode (cs : list byte) : option (list byte) :=
  match cs with
  | [] => Some []
  | c0 :: c1 :: c2 :: c3 :: rest =>
      match rest with
      | [] => unlast c0 c1 c2 c3
      | _ :: _ =>
          obind (ungroup3 c0 c1 c2 c3) (fun g =>
          obind (b64decode rest) (fun r => Some (g ++ r)))
      end
  | _ => None
  end.

End Base64.

(** ** Python [bytes] and [str] operations used by the module *)

Definition in_range (lo hi : N) (b : byte) : bool :=
  ((lo <=? Byte.to_N b) && (Byte.to_N b <=? hi))%N.

Definition continuation (b : byte) : bool := in_range 0x80 0xBF b.

(** Well-formed UTF-8 (RFC 3629): shortest form only, no surrogates,
    nothing above U+10FFFF. *)
Fixpoint utf8_valid (bs : list byte) : bool :=
  match bs with
  | [] => true
  | b0 :: r1 =>
    if in_range 0x00 0x7F b0 then utf8_valid r1
    else
      match r1 with
      | [] => false
      | b1 :: r2 =>
        if in_range 0xC2 0xDF b0 then continuation b1 && utf8_valid r2
        else
          match r2 with
          | [] => false
          | b2 :: r3 =>
            if in_range 0xE0 0xEF b0 then
              (if Byte.eqb b0 xe0 then in_range 0xA0 0xBF b1
               else if Byte.eqb b0 xed then in_range 0x80 0x9F b1
               else continuation b1)
              && continuation b2 && utf8_valid r3
            else
              match r3 with
              | [] => false
              | b3 :: r4 =>
                if in_range 0xF0 0xF4 b0 then
                  (if Byte.eqb b0 xf0 then in_range 0x90 0xBF b1
                   else if Byte.eqb b0 xf4 then in_range 0x80 0x8F b1
                   else continuation b1)
                  && continuation b2 && continuation b3 && utf8_valid r4
                else false
              end
          end
      end
  end.

(** An ASCII character other than the line feed. *)
Definition plain_char (ch : byte) : bool :=
  in_range 0x00 0x7F ch && negb (Byte.eqb ch x0a).

(** [bytes.decode('utf-8')] *)
Definition decode_utf8 (bs : list byte) : result string :=
  if utf8_valid bs then Ok (string_of_list_byte bs)
  else Raise UnicodeDecodeError.

Definition newline : ascii := ascii_of_nat 10.
Definition dquote : ascii := ascii_of_nat 34.

Fixpoint str_join_after (new : string) (s : string) : string :=
  match s with
  | EmptyString => EmptyString
  | String c s' => String c (new +:+ str_join_after new s')
  end.

Fixpoint replace_from (old new : string) (skip : nat) (s : string) : string :=
  match s with
  | EmptyString => EmptyString
  | String c s' =>
      match skip with
      | S k => replace_from old new k s'
      | O =>
          if String.prefix old s
          then new +:+ replace_from old new (Nat.pred (String.length old)) s'
          else String c (replace_from old new 0 s')
      end
  end.

(** [str.replace(old, new)]: every non-overlapping occurrence, left to right. *)
Definition str_replace (old new s : string) : string :=
  match old with
  | EmptyString => new +:+ str_join_after new s
  | String _ _ => replace_from old new 0 s
  end.

(** [str.format] with automatically numbered [{}] fields and string
    arguments; doubled braces stand for a literal brace. *)
Fixpoint str_format (tmpl : string) (args : list string) : result string :=
  match tmpl with
  | EmptyString => Ok EmptyString
  | String "{" (String "}" rest) =>
      match args with
      | a :: args' => rmap (String.append a) (str_format rest args')
      | [] => Raise IndexError
      end
  | String "{" (String "{" rest) => rmap (String "{") (str_format rest args)
  | String "}" (String "}" rest) => rmap (String "}") (str_format rest args)
  | String "{" _ => Raise ValueError
  | String "}" _ => Raise ValueError
  | String c rest => rmap (String c) (str_format rest args)
  end.

(** [base64.b64encode] applied to a Python value that is either [None]
    or a [bytes] object: [None] is not bytes-like. *)
Definition b64encode_py (v : option (list byte)) : result (list byte) :=
  match v with
  | None => Raise TypeError
  | Some bs => Ok (Base64.b64encode bs)
  end.

(** ** Tiles *)

(** Modelled from the spec: the cell-type descriptor of
    [pyrasterframes.rf_types], known here only through the string its
    [__repr__] returns. *)
Record CellType : Type := { cell_type_repr : string }.

(** Modelled from the spec: the [Tile] class of [pyrasterframes.rf_types],
    which is not part of this file.  [cells] is the 2-D grid or [None];
    [dimensions] is the pair [[width, height]] the method of that name
    returns; [cell_type] is the descriptor. *)
Record Tile : Type := {
  cells : option (list (list Z));
  dimensions : Z * Z;
  cell_type : CellType
}.

(** ** Python floats *)

Definition prec : Z := 53.
Definition emax : Z := 1024.

(** The float nearest to a Python int; an int too large for a float is an
    OverflowError. *)
Definition float_of_int (n : Z) : result spec_float :=
  match binary_normalize prec emax n 0 false with
  | S754_infinity _ => Raise OverflowError
  | x => Ok x
  end.

(** [x * n] for a float [x] and an int [n] *)
Definition float_mul_int (x : spec_float) (n : Z) : result spec_float :=
  rbind (float_of_int n) (fun y => Ok (SFmul prec emax x y)).

(** [x / n] for a float [x] and an int [n] *)
Definition float_div_int (x : spec_float) (n : Z) : result spec_float :=
  rbind (float_of_int n) (fun y =>
  match y with
  | S754_zero _ => Raise ZeroDivisionError
  | _ => Ok (SFdiv prec emax x y)
  end).


(** ** tile_to_png *)

(** The calls the module makes on matplotlib objects, with their
    arguments: [Figure(figsize=...)], [FigureCanvas(fig)],
    [fig.add_subplot], [axis.imshow], [axis.set_aspect],
    [axis.xaxis.set_ticks], [axis.yaxis.set_ticks], [axis.set_title]. *)
Inductive mpl_call : Type :=
  | NewFigure (figsize : spec_float * spec_float)
  | NewCanvas
  | AddSubplot (nrows ncols index : Z)
  | Imshow (data : list (list Z))
  | SetAspect (aspect : string)
  | SetXTicks (ticks : list Z)
  | SetYTicks (ticks : list Z)
  | SetTitle (label : string).

(** matplotlib as the module uses it.  [mpl_import] stands for the three
    imports at the head of the function and gives the state before any
    object exists; every call may raise; [canvas_print_png] is
    [canvas.print_png(output)] followed by [output.getvalue()]. *)
Class Matplotlib : Type := {
  mpl_state : Type;
  mpl_import : result mpl_state;
  mpl_do : mpl_state -> mpl_call -> result mpl_state;
  canvas_print_png : mpl_state -> result (list byte)
}.

Definition dpi : Z := 300.

(** 5.5 *)
Definition nominal_size : spec_float := binary_normalize prec emax 11 (-1) false.

(** [nominal_size * pixels / dpi] *)
Definition inches (pixels : Z) : result spec_float :=
  rbind (float_mul_int nominal_size pixels) (fun x => float_div_int x dpi).

(** [str] of a Python list of two ints. *)
Definition str_int_pair (d : Z * Z) : string :=
  "[" +:+ pretty (fst d) +:+ ", " +:+ pretty (snd d) +:+ "]".

Definition tile_to_png `{Matplotlib} (tile : Tile) : result (option (list byte)) :=
  match cells tile with
  | None => Ok None
  | Some grid =>
      rbind mpl_import (fun mpl =>
      let '(width, height) := dimensions tile in
      rbind (inches width) (fun fig_w =>
      rbind (inches height) (fun fig_h =>
      rbind (mpl_do mpl (NewFigure (fig_w, fig_h))) (fun mpl =>
      rbind (mpl_do mpl NewCanvas) (fun mpl =>
      rbind (mpl_do mpl (AddSubplot 1 1 1)) (fun mpl =>
      rbind (mpl_do mpl (Imshow grid)) (fun mpl =>
      rbind (mpl_do mpl (SetAspect "equal")) (fun mpl =>
      rbind (mpl_do mpl (SetXTicks [])) (fun mpl =>
      rbind (mpl_do mpl (SetYTicks [])) (fun mpl =>
      rbind (str_format "{}, {})"
               [str_int_pair (dimensions tile); cell_type_repr (cell_type tile)])
        (fun ttl =>
      rbind (mpl_do mpl (SetTitle ttl)) (fun mpl =>
      rbind (canvas_print_png mpl) (fun output =>
      Ok (Some output))))))))))))))
  end.

(** A sequence of calls, stopping at the first that raises. *)
Fixpoint mpl_run `{Matplotlib} (mpl : mpl_state) (calls : list mpl_call)
    : result mpl_state :=
  match calls with
  | [] => Ok mpl
  | c :: calls' => rbind (mpl_do mpl c) (fun mpl' => mpl_run mpl' calls')
  end.

(** The calls that follow the creation of the figure. *)
Definition axis_calls (tile : Tile) (grid : list (list Z)) : list mpl_call :=
  [ NewCanvas; AddSubplot 1 1 1; Imshow grid; SetAspect "equal";
    SetXTicks []; SetYTicks [];
    SetTitle (str_int_pair (dimensions tile) +:+ ", "
              +:+ cell_type_repr (cell_type tile) +:+ ")") ].

(** ** tile_to_html *)

Definition b64_img_html : string :=
  "<img src=" +:+ String dquote ("data:image/png;base64,{}" +:+ String dquote " />").

Definition tile_to_html `{Matplotlib} (tile : Tile) : result string :=
  rbind (tile_to_png tile) (fun png_bits =>
  rbind (b64encode_py png_bits) (fun enc =>
  rbind (decode_utf8 enc) (fun txt =>
  let b64_png := str_replace (String newline EmptyString) EmptyString txt in
  str_format b64_img_html [b64_png]))).

(** ** Dataframes and the pandas display options *)

(** The values pandas display options take. *)
Inductive pyvalue : Type :=
  | VNone
  | VBool (b : bool)
  | VInt (z : Z)
  | VStr (s : string).

(** Python truth value, as tested by [not]. *)
Definition truthy (v : pyvalue) : bool :=
  match v with
  | VNone => false
  | VBool b => b
  | VInt z => negb (z =? 0)%Z
  | VStr s => negb (String.eqb s EmptyString)
  end.

(** An object that is not a [Tile] is known to this module only through
    the string its [__repr__] returns. *)
Record PyObject : Type := { obj_repr : string }.

Inductive cell : Type :=
  | CTile (t : Tile)
  | CObject (o : PyObject).

(** [isinstance(v, pyrasterframes.rf_types.Tile)] *)
Definition is_Tile (v : cell) : bool :=
  match v with
  | CTile _ => true
  | CObject _ => false
  end.

(** A dataframe: the ordered column labels and the rows, each row holding
    one value per column. *)
Record DataFrame : Type := {
  columns : list string;
  rows : list (list cell)
}.

Definition len (df : DataFrame) : nat := length (rows df).

(** [df.iloc[i]]: the row as a label-indexed series. *)
Definition iloc (df : DataFrame) (i : nat) : result (list (string * cell)) :=
  match rows df !! i with
  | Some r => Ok (zip (columns df) r)
  | None => Raise IndexError
  end.

(** The values a series holds under a label, in order. *)
Fixpoint series_matches (row : list (string * cell)) (c : string) : list cell :=
  match row with
  | [] => []
  | (k, v) :: row' =>
      if String.eqb k c then v :: series_matches row' c else series_matches row' c
  end.

(** What indexing a series by a label gives: the value when the label
    occurs once, a series of the values when it occurs several times. *)
Inductive item : Type :=
  | Scalar (v : cell)
  | SubSeries (vs : list cell).

(** [series[c]] *)
Definition series_getitem (row : list (string * cell)) (c : string) : result item :=
  match series_matches row c with
  | [] => Raise KeyError
  | [v] => Ok (Scalar v)
  | vs => Ok (SubSeries vs)
  end.

(** [isinstance(x, pyrasterframes.rf_types.Tile)] for what [series[c]] gave *)
Definition isinstance_Tile (x : item) : bool :=
  match x with
  | Scalar v => is_Tile v
  | SubSeries _ => false
  end.

(** Every row has one value per column, as in every frame pandas builds. *)
Definition rectangular (df : DataFrame) : Prop :=
  Forall (fun r => length r = length (columns df)) (rows df).


(** The keyword arguments of [DataFrame.to_html] that the module sets. *)
Record to_html_kwargs : Type := {
  escape : bool;
  formatters : gmap string (cell -> result string);
  render_links : bool;
  notebook : bool;
  max_rows : pyvalue;
  max_cols : pyvalue;
  show_dimensions : pyvalue
}.

(** pandas' own renderers.  Both read the display options in force when
    they are called. *)
Class Pandas : Type := {
  df_repr_html : DataFrame -> gmap string pyvalue -> result string;
  df_to_html : DataFrame -> to_html_kwargs -> gmap string pyvalue -> result string
}.

(** Calls made to pandas' renderers, with the options in force. *)
Inductive event : Type :=
  | EvReprHtml (df : DataFrame) (opts : gmap string pyvalue)
  | EvToHtml (df : DataFrame) (kw : to_html_kwargs) (opts : gmap string pyvalue).

(** Process-wide state: the registered display options and the trace of
    renderer calls (oldest first). *)
Record World : Type := {
  options : gmap string pyvalue;
  rendered : list event
}.

Definition M (A : Type) : Type := World -> World * result A.

Definition ret {A} (a : A) : M A := fun w => (w, Ok a).

Definition bind {A B} (m : M A) (k : A -> M B) : M B :=
  fun w =>
    match m w with
    | (w', Ok a) => k a w'
    | (w', Raise e) => (w', Raise e)
    end.

Definition lift {A} (r : result A) : M A := fun w => (w, r).

Notation "'do' x <- m ; k" := (bind m (fun x => k))
  (at level 10, x name, m at level 100, k at level 200).

(** [pd.get_option(key)] *)
Definition get_option (key : string) : M pyvalue :=
  fun w =>
    match options w !! key with
    | Some v => (w, Ok v)
    | None => (w, Raise OptionError)
    end.

(** [pd.set_option(key, value)] on a registered key; pandas' validation
    of the value is not modelled (-1 is the legacy spelling of an
    unbounded column width). *)
Definition set_option (key : string) (value : pyvalue) : M unit :=
  fun w =>
    match options w !! key with
    | Some _ =>
        ({| options := <[key := value]> (options w); rendered := rendered w |}, Ok tt)
    | None => (w, Raise OptionError)
    end.

(** [df._repr_html_()] *)
Definition call_repr_html `{Pandas} (df : DataFrame) : M string :=
  fun w =>
    ({| options := options w;
        rendered := rendered w ++ [EvReprHtml df (options w)] |},
     df_repr_html df (options w)).

(** [df.to_html(...)] with the keyword arguments [kw] *)
Definition call_to_html `{Pandas} (df : DataFrame) (kw : to_html_kwargs) : M string :=
  fun w =>
    ({| options := options w;
        rendered := rendered w ++ [EvToHtml df kw (options w)] |},
     df_to_html df kw (options w)).

(** ** pandas_df_to_html *)

(** The loop over [df.columns] that fills [tile_cols]. *)
Fixpoint find_tile_cols (df : DataFrame) (cols : list string)
    (tile_cols : list string) : result (list string) :=
  match cols with
  | [] => Ok tile_cols
  | c :: cols' =>
      rbind (iloc df 0) (fun row0 =>
      rbind (series_getitem row0 c) (fun v =>
      find_tile_cols df cols'
        (if isinstance_Tile v then tile_cols ++ [c] else tile_cols)))
  end.

Definition _safe_tile_to_html `{Matplotlib} (t : cell) : result string :=
  match t with
  | CTile tile => tile_to_html tile
  | CObject o => Ok (obj_repr o)
  end.

Definition max_colwidth_key : string := "display.max_colwidth".

Definition pandas_df_to_html `{Matplotlib} `{Pandas} (df : DataFrame)
    : M (option string) :=
  do flag <- get_option "display.notebook_repr_html";
  if negb (truthy flag) then ret None
  else if (len df =? 0)%nat then
    do html <- call_repr_html df;
    ret (Some html)
  else
    do tile_cols <- lift (find_tile_cols df (columns df) []);
    let formatter : gmap string (cell -> result string) :=
      list_to_map ((fun c => (c, _safe_tile_to_html)) <$> tile_cols) in
    do default_max_colwidth <- get_option max_colwidth_key;
    do _ <- set_option max_colwidth_key (VInt (-1));
    do rows_opt <- get_option "display.max_rows";
    do cols_opt <- get_option "display.max_columns";
    do dims_opt <- get_option "display.show_dimensions";
    do return_html <-
      call_to_html df
        {| escape := false;
           formatters := formatter;
           render_links := true;
           notebook := true;
           max_rows := rows_opt;
           max_cols := cols_opt;
           show_dimensions := dims_opt |};
    do _ <- set_option max_colwidth_key default_max_colwidth;
    ret (Some return_html).

(** ** Vocabulary of the statements *)

(** The value a row holds under a label is a [Tile]. *)
Definition tile_at (row : list (string * cell)) (c : string) : bool :=
  match series_getitem row c with
  | Ok v => isinstance_Tile v
  | Raise _ => false
  end.


(** The notebook HTML repr is switched on. *)
Definition html_enabled (w : World) : Prop :=
  exists flag,
    options w !! "display.notebook_repr_html" = Some flag /\ truthy flag = true.

(** The display options the formatter reads are registered, as they are
    in every pandas session. *)
Definition options_registered (w : World) : Prop :=
  is_Some (options w !! max_colwidth_key) /\
  is_Some (options w !! "display.max_rows") /\
  is_Some (options w !! "display.max_columns") /\
  is_Some (options w !! "display.show_dimensions").

(** The options with the column width set to unbounded. *)
Definition widened (opts : gmap string pyvalue) : gmap string pyvalue :=
  <[max_colwidth_key := VInt (-1)]> opts.



(** ** Concrete tiles, frames and renderers used to exercise the model *)

Module Samples.

(** The eight-byte PNG signature, standing for a rendered image. *)
Definition png_bytes : list byte := [x89; x50; x4e; x47; x0d; x0a; x1a; x0a].

(** A backend that accepts every call, remembers the calls and prints
    the same image whatever was drawn. *)
Definition agg : Matplotlib :=
  {| mpl_state := list mpl_call;
     mpl_import := Ok [];
     mpl_do := fun mpl call => Ok (mpl ++ [call]);
     canvas_print_png := fun _ => Ok png_bytes |}.

Definition int8 : CellType := {| cell_type_repr := "CellType(int8, -128)" |}.

Definition tile_2x3 : Tile :=
  {| cells := Some [[1; 2]; [3; 4]; [5; 6]]%Z; dimensions := (2, 3)%Z; cell_type := int8 |}.

Definition tile_256 : Tile :=
  {| cells := Some [[0]]%Z; dimensions := (256, 256)%Z; cell_type := int8 |}.

Definition tile_no_cells : Tile :=
  {| cells := None; dimensions := (0, 0)%Z; cell_type := int8 |}.

Definition obj (r : string) : cell := CObject {| obj_repr := r |}.

(** A stand-in for pandas: a cell is rendered by the formatter registered
    for its column when there is one, and by a fixed text otherwise; the
    first formatter that raises aborts the rendering. *)
Definition render_cell (kw : to_html_kwargs) (kv : string * cell) : result string :=
  match formatters kw !! fst kv with
  | Some f => f (snd kv)
  | None =>
      match snd kv with
      | CTile _ => Ok "Tile"
      | CObject o => Ok (obj_repr o)
      end
  end.

Fixpoint render_row (kw : to_html_kwargs) (row : list (string * cell)) : result string :=
  match row with
  | [] => Ok EmptyString
  | kv :: row' =>
      rbind (render_cell kw kv) (fun td =>
      rbind (render_row kw row') (fun tds =>
      Ok ("<td>" +:+ td +:+ "</td>" +:+ tds)))
  end.

Fixpoint render_rows (kw : to_html_kwargs) (cols : list string)
    (rs : list (list cell)) : result string :=
  match rs with
  | [] => Ok EmptyString
  | r :: rs' =>
      rbind (render_row kw (zip cols r)) (fun tr =>
      rbind (render_rows kw cols rs') (fun trs =>
      Ok ("<tr>" +:+ tr +:+ "</tr>" +:+ trs)))
  end.

Definition pandas : Pandas :=
  {| df_repr_html := fun df _ => Ok "<div><table></table></div>";
     df_to_html := fun df kw _ =>
       rmap (fun body => "<table>" +:+ body +:+ "</table>")
            (render_rows kw (columns df) (rows df)) |}.

Definition display_options (html : bool) : gmap string pyvalue :=
  <["display.notebook_repr_html" := VBool html]>
  (<["display.max_colwidth" := VInt 50]>
  (<["display.max_rows" := VInt 60]>
  (<["display.max_columns" := VInt 20]>
  (<["display.show_dimensions" := VStr "truncate"]> ∅)))).

Definition world (html : bool) : World :=
  {| options := display_options html; rendered := [] |}.

Definition df_empty : DataFrame :=
  {| columns := ["id"; "tile"]; rows := [] |}.

(** Row 0 holds a tile under "tile"; row 1 holds a non-tile there and a
    tile under "id". *)
Definition df_mixed : DataFrame :=
  {| columns := ["id"; "tile"];
     rows := [ [obj "1"; CTile tile_2x3]; [CTile tile_256; obj "nan"] ] |}.

(** One row whose tile has no cell grid. *)
Definition df_no_cells : DataFrame :=
  {| columns := ["id"; "tile"];
     rows := [ [obj "1"; CTile tile_no_cells] ] |}.

End Samples.

(** ** Registration at import time *)

(** A callable held by an IPython formatter: this module's
    [pandas_df_to_html] or somebody else's function. *)
Inductive handler : Type :=
  | PandasDfToHtml
  | Foreign (name : string).

(** The running interactive shell: [display_formatter.formatters], one
    formatter per MIME type, each mapping a type to the callable that
    renders it. *)
Record Shell : Type := {
  display_formatters : gmap string (gmap string handler)
}.

(** What the [try] block that ends the module consults when the module is
    imported. *)
Record Interpreter : Type := {
  ipython_importable : bool;
  running_shell : option Shell;
  pandas_importable : bool
}.

(** Exceptions raised inside the [try] block. *)
Inductive raised : Type :=
  | ImportError
  | Python (e : exn).

Definition dataframe_type : string := "pandas.DataFrame".

(** [formatter.for_type(typ, func)] *)
Definition for_type (typ : string) (func : handler)
    (formatter : gmap string handler) : gmap string handler :=
  <[typ := func]> formatter.

(** The statements inside [try:]. *)
Definition register_formatter (py : Interpreter) : raised + Interpreter :=
  if negb (ipython_importable py) then inl ImportError
  else
    match running_shell py with
    | None => inr py
    | Some shell =>
        if negb (pandas_importable py) then inl ImportError
        else
          match display_formatters shell !! "text/html" with
          | None => inl (Python KeyError)
          | Some html_formatter =>
              inr {| ipython_importable := ipython_importable py;
                     running_shell :=
                       Some {| display_formatters :=
                                 <["text/html" :=
                                     for_type dataframe_type PandasDfToHtml html_formatter]>
                                 (display_formatters shell) |};
                     pandas_importable := pandas_importable py |}
          end
    end.

(** The block as a whole: [try: ... except ImportError: pass]. *)
Definition load_module (py : Interpreter) : raised + Interpreter :=
  match register_formatter py with
  | inl ImportError => inr py
  | outcome => outcome
  end.

(** The callable registered for a type under a MIME type, if any. *)
Definition registered_handler (py : Interpreter) (mime typ : string) : option handler :=
  match running_shell py with
  | None => None
  | Some shell =>
      match display_formatters shell !! mime with
      | None => None
      | Some formatter => formatter !! typ
      end
  end.

(** ** Further vocabulary and sample values *)

(** The characters a base64 text is made of. *)
Definition b64_text_chars : string :=
  "ABCDEFGHIJKLMNOPQRSTUVWXYZabcdefghijklmnopqrstuvwxyz0123456789+/=".

(** The [<img>] element around a base64 text. *)
Definition img_tag (data : string) : string :=
  "<img src=" +:+ String dquote "data:image/png;base64," +:+ data +:+ String dquote " />".

Module MoreSamples.



(** Two columns under one label, each holding a tile in row 0. *)
Definition df_dup : DataFrame :=
  {| columns := ["a"; "a"];
     rows := [ [CTile Samples.tile_2x3; CTile Samples.tile_2x3] ] |}.


Definition shell : Shell :=
  {| display_formatters :=
       <["text/html" := {[ "builtins.float" := Foreign "float_html" ]}]>
       (<["text/plain" := {[ dataframe_type := Foreign "pprint" ]}]> ∅) |}.

Definition notebook : Interpreter :=
  {| ipython_importable := true; running_shell := Some shell; pandas_importable := true |}.

Definition script : Interpreter :=
  {| ipython_importable := true; running_shell := None; pandas_importable := true |}.

Definition bare : Interpreter :=
  {| ipython_importable := false; running_shell := None; pandas_importable := true |}.

(** A shell that has lost its HTML formatter. *)
Definition plain_text_notebook : Interpreter :=
  {| ipython_importable := true;
     running_shell :=
       Some {| display_formatters :=
                 {[ "text/plain" := {[ dataframe_type := Foreign "pprint" ]} ]} |};
     pandas_importable := true |}.


End MoreSamples.

Example b64encode_Man :
  Base64.b64encode (list_byte_of_string "Man") = list_byte_of_string "TWFu".
Proof. reflexivity. Qed.

Example b64encode_Ma :
  Base64.b64encode (list_byte_of_string "Ma") = list_byte_of_string "TWE=".
Proof. reflexivity. Qed.

Example b64encode_M :
  Base64.b64encode (list_byte_of_string "M") = list_byte_of_string "TQ==".
Proof. reflexivity. Qed.

Example b64decode_light :
  Base64.b64decode (list_byte_of_string "bGlnaHQgdw==")
  = Some (list_byte_of_string "light w").
Proof. reflexivity. Qed.

Example utf8_valid_two_byte : utf8_valid [xc3; xa9] = true.
Proof. reflexivity. Qed.

Example utf8_valid_overlong : utf8_valid [xc0; x80] = false.
Proof. reflexivity. Qed.

Example utf8_valid_surrogate : utf8_valid [xed; xa0; x80] = false.
Proof. reflexivity. Qed.

Example utf8_valid_truncated : utf8_valid [xe2; x82] = false.
Proof. reflexivity. Qed.

Example str_replace_newline :
  str_replace (String newline EmptyString) EmptyString
    ("TWFu" +:+ String newline "TWE=" +:+ String newline EmptyString)
  = "TWFuTWE=".
Proof. reflexivity. Qed.

Example str_replace_word : str_replace "ab" "-" "xababa" = "x--a".
Proof. reflexivity. Qed.

Example str_replace_empty : str_replace "" "-" "ab" = "-a-b-".
Proof. reflexivity. Qed.

Example str_format_missing_argument : str_format "{}, {})" ["w"] = Raise IndexError.
Proof. reflexivity. Qed.

Example tile_to_html_2x3 :
  @tile_to_html Samples.agg Samples.tile_2x3 =
  Ok ("<img src=" +:+ String dquote "data:image/png;base64,iVBORw0KGgo="
        +:+ String dquote " />").
Proof. reflexivity. Qed.

Example axis_calls_2x3 :
  last (axis_calls Samples.tile_2x3 []) = Some (SetTitle "[2, 3], CellType(int8, -128))").
Proof. reflexivity. Qed.

Example inches_256 :
  inches 256 = Ok (S754_finite false 5284223562781382 (-50)).
Proof. reflexivity. Qed.

Example float_of_int_too_large : float_of_int (2 ^ 1024) = Raise OverflowError.
Proof. reflexivity. Qed.

Example float_of_int_rounds : float_of_int (2 ^ 53 + 1) = float_of_int (2 ^ 53).
Proof. reflexivity. Qed.

Example find_tile_cols_dup :
  find_tile_cols MoreSamples.df_dup (columns MoreSamples.df_dup) [] = Ok [].
Proof. reflexivity. Qed.

Example find_tile_cols_mixed :
  find_tile_cols Samples.df_mixed (columns Samples.df_mixed) [] = Ok ["tile"].
Proof. reflexivity. Qed.

Example pandas_df_to_html_mixed :
  snd (@pandas_df_to_html Samples.agg Samples.pandas Samples.df_mixed
         (Samples.world true)) =
  Ok (Some ("<table><tr><td>1</td><td><img src="
              +:+ String dquote "data:image/png;base64,iVBORw0KGgo="
              +:+ String dquote " /></td></tr><tr><td>Tile</td><td>nan</td></tr></table>")).
Proof. vm_compute. reflexivity. Qed.

Example pandas_df_to_html_mixed_restores :
  options (fst (@pandas_df_to_html Samples.agg Samples.pandas Samples.df_mixed
                  (Samples.world true))) !! max_colwidth_key = Some (VInt 50).
Proof. vm_compute. reflexivity. Qed.

(** * Properties *)

(** ** Base64 *)

Ltac lia_div := zify; Z.to_euclidean_division_equations; lia.

Section Base64_facts.
Import Base64.
Local Open Scope N_scope.

Lemma byte_lt_256 (a : byte) : Byte.to_N a < 256.
Proof. pose proof (Byte.to_N_bounded a). lia. Qed.

(** Three octets split into four sextets and put together again. *)
Lemma regroup3 (a b c : N) :
  a < 256 -> b < 256 -> c < 256 ->
  let n := a * 65536 + b * 256 + c in
  let m := (n / 262144) * 262144 + ((n / 4096) mod 64) * 4096
           + ((n / 64) mod 64) * 64 + n mod 64 in
  n / 262144 < 64 /\ m / 65536 = a /\ (m / 256) mod 256 = b /\ m mod 256 = c.
Proof. intros Ha Hb Hc n m. subst n m. repeat split; lia_div. Qed.

Lemma regroup2 (a b : N) :
  a < 256 -> b < 256 ->
  let n := (a * 256 + b) * 4 in
  let m := ((n / 4096) * 4096 + ((n / 64) mod 64) * 64 + n mod 64) / 4 in
  n / 4096 < 64 /\ m / 256 = a /\ m mod 256 = b.
Proof. intros Ha Hb n m. subst n m. repeat split; lia_div. Qed.

Lemma regroup1 (a : N) :
  a < 256 ->
  let n := a * 16 in
  n / 64 < 64 /\ ((n / 64) * 64 + n mod 64) / 16 = a.
Proof. intros Ha n. subst n. split; lia_div. Qed.

Lemma mod64_lt (n : N) : n mod 64 < 64.
Proof. lia_div. Qed.

Lemma sextet_roundtrip (i : N) :
  i < 64 -> sextet_of_char (sextet_char i) = Some i.
Proof.
  intros Hi. rewrite <- (N2Nat.id i).
  assert (Hn : (N.to_nat i < 64)%nat) by lia.
  revert Hn. generalize (N.to_nat i). intros n Hn.
  do 64 (destruct n as [|n]; [reflexivity|]). lia.
Qed.

Lemma sextet_char_not_pad (i : N) :
  i < 64 -> Byte.eqb (sextet_char i) pad = false.
Proof.
  intros Hi. rewrite <- (N2Nat.id i).
  assert (Hn : (N.to_nat i < 64)%nat) by lia.
  revert Hn. generalize (N.to_nat i). intros n Hn.
  do 64 (destruct n as [|n]; [reflexivity|]). lia.
Qed.

Lemma ungroup3_group3 (a b c : byte) (c0 c1 c2 c3 : byte) :
  group3 a b c = [c0; c1; c2; c3] -> ungroup3 c0 c1 c2 c3 = Some [a; b; c].
Proof.
  unfold group3. intros E. injection E as <- <- <- <-.
  destruct (regroup3 _ _ _ (byte_lt_256 a) (byte_lt_256 b) (byte_lt_256 c))
    as (H0 & Ha & Hb & Hc).
  unfold ungroup3.
  rewrite (sextet_roundtrip _ H0), !(sextet_roundtrip _ (mod64_lt _)). simpl obind.
  rewrite Ha, Hb, Hc, !Byte.of_to_N. reflexivity.
Qed.

Lemma ungroup2_group2 (a b : byte) (c0 c1 c2 c3 : byte) :
  group2 a b = [c0; c1; c2; c3] -> ungroup2 c0 c1 c2 = Some [a; b] /\ c3 = pad.
Proof.
  unfold group2. intros E. injection E as <- <- <- <-. split; [|reflexivity].
  destruct (regroup2 _ _ (byte_lt_256 a) (byte_lt_256 b)) as (H0 & Ha & Hb).
  unfold ungroup2.
  rewrite (sextet_roundtrip _ H0), !(sextet_roundtrip _ (mod64_lt _)). simpl obind.
  rewrite Ha, Hb, !Byte.of_to_N. reflexivity.
Qed.

Lemma ungroup1_group1 (a : byte) (c0 c1 c2 c3 : byte) :
  group1 a = [c0; c1; c2; c3] -> ungroup1 c0 c1 = Some [a] /\ c2 = pad /\ c3 = pad.
Proof.
  unfold group1. intros E. injection E as <- <- <- <-. split; [|split; reflexivity].
  destruct (regroup1 _ (byte_lt_256 a)) as (H0 & Ha).
  unfold ungroup1.
  rewrite (sextet_roundtrip _ H0), (sextet_roundtrip _ (mod64_lt _)). simpl obind.
  rewrite Ha, Byte.of_to_N. reflexivity.
Qed.

Lemma list_ind3 {A} (P : list A -> Prop) :
  P [] -> (forall a, P [a]) -> (forall a b, P [a; b]) ->
  (forall a b c rest, P rest -> P (a :: b :: c :: rest)) ->
  forall l, P l.
Proof.
  intros H0 H1 H2 H3 l.
  assert (H : forall n l, (length l <= n)%nat -> P l).
  { induction n as [|n IH]; intros [|a [|b [|c rest]]] Hl; simpl in Hl; auto;
      try lia.
    apply H3, IH. lia. }
  apply (H (length l)). lia.
Qed.

Lemma b64encode_cons3 (a b c : byte) (rest : list byte) :
  b64encode (a :: b :: c :: rest) = group3 a b c ++ b64encode rest.
Proof. reflexivity. Qed.

Lemma b64decode_cons4 (c0 c1 c2 c3 : byte) (rest : list byte) :
  b64decode (c0 :: c1 :: c2 :: c3 :: rest) =
  match rest with
  | [] => unlast c0 c1 c2 c3
  | _ :: _ =>
      obind (ungroup3 c0 c1 c2 c3) (fun g =>
      obind (b64decode rest) (fun r => Some (g ++ r)))
  end.
Proof. reflexivity. Qed.

Lemma b64encode_nil_inv (bs : list byte) : b64encode bs = [] -> bs = [].
Proof. destruct bs as [|a [|b [|c rest]]]; [reflexivity | discriminate..]. Qed.

Lemma group3_shape (a b c : byte) :
  exists c0 c1 c2 c3,
    group3 a b c = [c0; c1; c2; c3] /\ Byte.eqb c3 pad = false.
Proof.
  unfold group3. do 4 eexists. split; [reflexivity|].
  apply sextet_char_not_pad, mod64_lt.
Qed.

Lemma group2_shape (a b : byte) :
  exists c0 c1 c2,
    group2 a b = [c0; c1; c2; pad] /\ Byte.eqb c2 pad = false.
Proof.
  unfold group2. do 3 eexists. split; [reflexivity|].
  apply sextet_char_not_pad, mod64_lt.
Qed.

(** Decoding inverts encoding. *)
Lemma b64decode_b64encode (bs : list byte) :
  b64decode (b64encode bs) = Some bs.
Proof.
  induction bs as [|a|a b|a b c rest IH] using list_ind3.
  - reflexivity.
  - change (b64encode [a]) with (group1 a).
    destruct (ungroup1_group1 a _ _ _ _ eq_refl) as (H & _ & _).
    unfold group1. rewrite b64decode_cons4. unfold unlast.
    change (Byte.eqb pad pad) with true. cbv iota. exact H.
  - change (b64encode [a; b]) with (group2 a b).
    destruct (group2_shape a b) as (c0 & c1 & c2 & E & Hp).
    destruct (ungroup2_group2 a b _ _ _ _ E) as (H & _).
    rewrite E, b64decode_cons4. unfold unlast.
    change (Byte.eqb pad pad) with true. cbv iota. rewrite Hp. exact H.
  - rewrite b64encode_cons3.
    destruct (group3_shape a b c) as (c0 & c1 & c2 & c3 & E & Hp).
    pose proof (ungroup3_group3 a b c _ _ _ _ E) as H.
    rewrite E. cbn [app]. rewrite b64decode_cons4.
    destruct (b64encode rest) as [|x tl] eqn:Er.
    + apply b64encode_nil_inv in Er. subst rest.
      unfold unlast. rewrite Hp. exact H.
    + rewrite H, IH. reflexivity.
Qed.

(** Every output character is a letter, a digit, [+], [/] or [=]. *)
Lemma sextet_char_in (i : N) : In (sextet_char i) (pad :: alphabet).
Proof.
  unfold sextet_char.
  destruct (nth_in_or_default (N.to_nat i) alphabet pad) as [H|H].
  - right. exact H.
  - left. symmetry. exact H.
Qed.

Lemma b64encode_chars (bs : list byte) :
  Forall (fun ch => In ch (pad :: alphabet)) (b64encode bs).
Proof.
  induction bs as [|a|a b|a b c rest IH] using list_ind3.
  - constructor.
  - unfold b64encode, group1.
    repeat (constructor; [first [apply sextet_char_in | left; reflexivity]|]).
    constructor.
  - unfold b64encode, group2.
    repeat (constructor; [first [apply sextet_char_in | left; reflexivity]|]).
    constructor.
  - rewrite b64encode_cons3. apply Forall_app. split; [|exact IH].
    unfold group3.
    repeat (constructor; [apply sextet_char_in|]). constructor.
Qed.

Lemma b64encode_plain (bs : list byte) :
  Forall (fun ch => plain_char ch = true) (b64encode bs).
Proof.
  eapply Forall_impl; [apply b64encode_chars|].
  intros ch Hin.
  assert (Hall : forallb plain_char (pad :: alphabet) = true) by reflexivity.
  rewrite forallb_forall in Hall. apply Hall, Hin.
Qed.

End Base64_facts.

(** ** Strings *)

Lemma string_of_list_byte_cons (b : byte) (bs : list byte) :
  string_of_list_byte (b :: bs) = String (ascii_of_byte b) (string_of_list_byte bs).
Proof. reflexivity. Qed.

Lemma plain_char_ascii (b : byte) :
  plain_char b = true -> in_range 0x00 0x7F b = true /\ ascii_of_byte b <> newline.
Proof.
  unfold plain_char. intros H. apply andb_prop in H as [Hr Hn]. split; [exact Hr|].
  intros E. apply (f_equal byte_of_ascii) in E.
  rewrite byte_of_ascii_of_byte in E. subst b. discriminate.
Qed.

Lemma utf8_valid_plain (bs : list byte) :
  Forall (fun ch => plain_char ch = true) bs -> utf8_valid bs = true.
Proof.
  induction 1 as [|b bs Hb _ IH]; [reflexivity|].
  apply plain_char_ascii in Hb as [Hr _].
  cbn [utf8_valid]. rewrite Hr. exact IH.
Qed.

Lemma decode_utf8_plain (bs : list byte) :
  Forall (fun ch => plain_char ch = true) bs ->
  decode_utf8 bs = Ok (string_of_list_byte bs).
Proof. intros H. unfold decode_utf8. rewrite (utf8_valid_plain _ H). reflexivity. Qed.

Lemma no_newline_plain (bs : list byte) :
  Forall (fun ch => plain_char ch = true) bs ->
  ~ In newline (list_ascii_of_string (string_of_list_byte bs)).
Proof.
  induction 1 as [|b bs Hb _ IH]; [intros []|].
  rewrite string_of_list_byte_cons. cbn [list_ascii_of_string].
  apply plain_char_ascii in Hb as [_ Hn].
  intros [E|Hin]; [exact (Hn E) | exact (IH Hin)].
Qed.

(** Replacing a character that does not occur changes nothing. *)
Lemma str_replace_absent (c : ascii) (new s : string) :
  ~ In c (list_ascii_of_string s) ->
  str_replace (String c EmptyString) new s = s.
Proof.
  unfold str_replace. induction s as [|d s IH]; intros Hn; [reflexivity|].
  cbn [list_ascii_of_string] in Hn.
  cbn [replace_from String.prefix].
  destruct (ascii_dec c d) as [E|_].
  - exfalso. apply Hn. left. symmetry. exact E.
  - f_equal. apply IH. intros Hin. apply Hn. right. exact Hin.
Qed.

Lemma str_format_img (data : string) :
  str_format b64_img_html [data] =
  Ok ("<img src=" +:+ String dquote "data:image/png;base64,"
        +:+ data +:+ String dquote " />").
Proof. reflexivity. Qed.

(** The title template has two fields and is given two arguments. *)
Lemma str_format_title (a b : string) :
  str_format "{}, {})" [a; b] = Ok (a +:+ ", " +:+ b +:+ ")").
Proof. reflexivity. Qed.

(** ** tile_to_png and tile_to_html *)

Lemma tile_to_png_run `{Matplotlib} (tile : Tile) (grid : list (list Z)) :
  cells tile = Some grid ->
  tile_to_png tile =
  rbind mpl_import (fun mpl =>
  rbind (inches (fst (dimensions tile))) (fun fig_w =>
  rbind (inches (snd (dimensions tile))) (fun fig_h =>
  rbind (mpl_run mpl (NewFigure (fig_w, fig_h) :: axis_calls tile grid)) (fun mpl' =>
  rmap Some (canvas_print_png mpl'))))).
Proof.
  intros Hc. unfold tile_to_png, axis_calls. rewrite Hc.
  destruct (dimensions tile) as [width height]. cbn [fst snd].
  destruct mpl_import as [mpl|e]; [|reflexivity]. cbn [rbind].
  destruct (inches width) as [fig_w|e]; [|reflexivity]. cbn [rbind].
  destruct (inches height) as [fig_h|e]; [|reflexivity]. cbn [rbind mpl_run].
  repeat match goal with
         | |- context [rbind (mpl_do ?m ?c) _] =>
             destruct (mpl_do m c); cbn [rbind mpl_run]; [|reflexivity]
         end.
  rewrite str_format_title. cbn [rbind].
  repeat match goal with
         | |- context [rbind (mpl_do ?m ?c) _] =>
             destruct (mpl_do m c); cbn [rbind mpl_run]; [|reflexivity]
         end.
  reflexivity.
Qed.

(** With a cell grid the function raises or returns bytes, never [None]. *)
Lemma tile_to_png_present `{Matplotlib} (tile : Tile) (grid : list (list Z)) :
  cells tile = Some grid ->
  (exists e, tile_to_png tile = Raise e) \/
  (exists png, tile_to_png tile = Ok (Some png)).
Proof.
  intros Hc. rewrite (tile_to_png_run tile grid Hc).
  repeat match goal with
         | |- context [rbind ?r _] =>
             destruct r; cbn [rbind]; [|left; eexists; reflexivity]
         end.
  destruct (canvas_print_png _); cbn; eauto.
Qed.

Lemma tile_to_html_of_png `{Matplotlib} (tile : Tile) (png : list byte) :
  tile_to_png tile = Ok (Some png) ->
  tile_to_html tile =
  Ok ("<img src=" +:+ String dquote "data:image/png;base64,"
        +:+ string_of_list_byte (Base64.b64encode png) +:+ String dquote " />").
Proof.
  intros Hpng. unfold tile_to_html. rewrite Hpng. cbn [rbind b64encode_py].
  pose proof (b64encode_plain png) as Hplain.
  rewrite (decode_utf8_plain _ Hplain). cbn [rbind].
  rewrite (str_replace_absent _ _ _ (no_newline_plain _ Hplain)).
  apply str_format_img.
Qed.

(** C2: a tile whose cell grid is absent makes tile_to_png return the
    no-value result [None]; the call completes normally, it does not raise. *)
Theorem tile_to_png_absent_cells `{Matplotlib} (tile : Tile) :
  cells tile = None -> tile_to_png tile = Ok None.
Proof. intros Hc. unfold tile_to_png. rewrite Hc. reflexivity. Qed.

(** C10: on a tile whose cell grid is absent tile_to_html raises: the
    [None] that tile_to_png returns is handed to [base64.b64encode], which
    rejects it with a [TypeError]. *)
Theorem tile_to_html_absent_cells_raises `{Matplotlib} (tile : Tile) :
  cells tile = None ->
  tile_to_png tile = Ok None /\ tile_to_html tile = Raise TypeError.
Proof.
  intros Hc. assert (Hpng : tile_to_png tile = Ok None).
  { unfold tile_to_png. rewrite Hc. reflexivity. }
  split; [exact Hpng|].
  unfold tile_to_html. rewrite Hpng. reflexivity.
Qed.







(** ** Column classification *)

Lemma series_matches_absent (cols : list string) (r : list cell) (c : string) :
  ~ In c cols -> series_matches (zip cols r) c = [].
Proof.
  revert r. induction cols as [|k cols IH]; intros r Hn; [reflexivity|].
  destruct r as [|x r]; [reflexivity|]. cbn [zip zip_with series_matches].
  destruct (String.eqb_spec k c) as [->|_].
  - exfalso. apply Hn. left. reflexivity.
  - apply IH. intros Hin. apply Hn. right. exact Hin.
Qed.

Lemma series_matches_present (cols : list string) (r : list cell) (c : string) :
  length r = length cols -> In c cols -> series_matches (zip cols r) c <> [].
Proof.
  revert r. induction cols as [|k cols IH]; intros r Hlen Hin; [destruct Hin|].
  destruct r as [|x r]; [discriminate|]. cbn [zip zip_with series_matches].
  destruct (String.eqb_spec k c) as [->|Hne]; [discriminate|].
  apply IH; [simpl in Hlen; lia|]. destruct Hin as [E|Hin]; [contradiction|exact Hin].
Qed.

(** A label yields a single value exactly when it names one column. *)
Lemma series_matches_single (cols : list string) (r : list cell) (c : string)
    (v : cell) :
  length r = length cols ->
  series_matches (zip cols r) c = [v] <->
  exists i, cols !! i = Some c /\ r !! i = Some v /\
            forall j, cols !! j = Some c -> j = i.
Proof.
  revert r. induction cols as [|k cols IH]; intros r Hlen.
  - destruct r; [|discriminate]. split; [discriminate|].
    intros (i & Hi & _). destruct i; discriminate.
  - destruct r as [|x r]; [discriminate|]. simpl in Hlen.
    assert (Hlen' : length r = length cols) by lia.
    cbn [zip zip_with series_matches].
    destruct (String.eqb_spec k c) as [->|Hne].
    + split.
      * intros E. injection E as -> Hnil. exists 0%nat.
        split; [reflexivity|]. split; [reflexivity|].
        intros [|j] Hj; [reflexivity|]. exfalso. simpl in Hj.
        apply (series_matches_present cols r c Hlen'); [|exact Hnil].
        apply list_elem_of_In. eapply list_elem_of_lookup_2. exact Hj.
      * intros (i & Hi & Hv & Huniq).
        assert (i = 0%nat) as -> by (symmetry; apply Huniq; reflexivity).
        simpl in Hv. injection Hv as ->. f_equal.
        apply series_matches_absent. intros Hin.
        apply list_elem_of_In, list_elem_of_lookup_1 in Hin as [j Hj].
        specialize (Huniq (S j) Hj). discriminate.
    + rewrite (IH r Hlen'). split.
      * intros (i & Hi & Hv & Huniq). exists (S i).
        split; [exact Hi|]. split; [exact Hv|].
        intros [|j] Hj; simpl in Hj; [congruence|]. f_equal. apply Huniq, Hj.
      * intros (i & Hi & Hv & Huniq). destruct i as [|i]; simpl in Hi, Hv; [congruence|].
        exists i. split; [exact Hi|]. split; [exact Hv|].
        intros j Hj. specialize (Huniq (S j) Hj). congruence.
Qed.

Lemma series_getitem_defined (cols : list string) (r : list cell) (c : string) :
  length r = length cols -> In c cols ->
  exists x, series_getitem (zip cols r) c = Ok x.
Proof.
  intros Hlen Hin. pose proof (series_matches_present cols r c Hlen Hin) as Hne.
  unfold series_getitem. destruct (series_matches (zip cols r) c) as [|v [|v' vs]];
    [contradiction | eauto | eauto].
Qed.

(** The row-0 test succeeds for a label exactly when it names one column
    and that column's value is a Tile. *)
Lemma tile_at_iff (cols : list string) (r : list cell) (c : string) :
  length r = length cols ->
  tile_at (zip cols r) c = true <->
  exists i t, cols !! i = Some c /\ r !! i = Some (CTile t) /\
              forall j, cols !! j = Some c -> j = i.
Proof.
  intros Hlen. unfold tile_at, series_getitem.
  destruct (series_matches (zip cols r) c) as [|v [|v' vs]] eqn:Hm.
  - split; [discriminate|]. intros (i & t & Hi & _).
    exfalso. apply (series_matches_present cols r c Hlen); [|exact Hm].
    apply list_elem_of_In. eapply list_elem_of_lookup_2. exact Hi.
  - apply (series_matches_single cols r c v Hlen) in Hm as (i & Hi & Hv & Huniq).
    cbn [isinstance_Tile]. split.
    + destruct v as [t|o]; [|discriminate]. intros _. exists i, t. auto.
    + intros (i' & t & Hi' & Hv' & _). rewrite (Huniq i' Hi') in Hv'.
      rewrite Hv in Hv'. injection Hv' as ->. reflexivity.
  - cbn [isinstance_Tile]. split; [discriminate|].
    intros (i & t & Hi & Hv & Huniq).
    assert (Hs : series_matches (zip cols r) c = [CTile t])
      by (apply (series_matches_single cols r c _ Hlen); eauto).
    rewrite Hm in Hs. discriminate.
Qed.

Lemma find_tile_cols_acc (df : DataFrame) (r0 : list cell) (later : list (list cell))
    (cols acc : list string) :
  rows df = r0 :: later ->
  (forall c, In c cols -> exists x, series_getitem (zip (columns df) r0) c = Ok x) ->
  find_tile_cols df cols acc =
  Ok (acc ++ List.filter (tile_at (zip (columns df) r0)) cols).
Proof.
  intros Hrows. revert acc. induction cols as [|c cols IH]; intros acc Hall.
  - cbn. rewrite app_nil_r. reflexivity.
  - cbn [find_tile_cols List.filter]. unfold iloc. rewrite Hrows. cbn [lookup list_lookup rbind].
    destruct (Hall c (or_introl eq_refl)) as [x Hx].
    unfold tile_at at 1. rewrite Hx. cbn [rbind].
    rewrite IH by (intros c' Hc'; apply Hall; right; exact Hc').
    destruct (isinstance_Tile x); [rewrite <- app_assoc|]; reflexivity.
Qed.

(** Only row 0 is read: the loop's result for a frame whose first row has
    one value per column. *)
Lemma find_tile_cols_row0 (df : DataFrame) (r0 : list cell) (later : list (list cell)) :
  rows df = r0 :: later -> length r0 = length (columns df) ->
  find_tile_cols df (columns df) [] =
  Ok (List.filter (tile_at (zip (columns df) r0)) (columns df)).
Proof.
  intros Hrows Hlen. rewrite (find_tile_cols_acc df r0 later _ _ Hrows); [reflexivity|].
  intros c Hc. apply series_getitem_defined; assumption.
Qed.

Lemma rect_row0 (df : DataFrame) (r0 : list cell) (later : list (list cell)) :
  rectangular df -> rows df = r0 :: later -> length r0 = length (columns df).
Proof.
  unfold rectangular. intros Hall Hrows. rewrite Hrows in Hall.
  apply Forall_cons in Hall as [H _]. exact H.
Qed.







(** ** pandas_df_to_html *)

Lemma max_colwidth_key_ne (k : string) :
  In k ["display.max_rows"; "display.max_columns"; "display.show_dimensions";
        "display.notebook_repr_html"] ->
  max_colwidth_key <> k.
Proof.
  intros Hin E. subst k. cbn in Hin.
  repeat (destruct Hin as [Hin|Hin]; [discriminate Hin|]). exact Hin.
Qed.

Lemma widened_other (opts : gmap string pyvalue) (k : string) :
  k <> max_colwidth_key -> widened opts !! k = opts !! k.
Proof. intros Hk. unfold widened. apply lookup_insert_ne. congruence. Qed.

Lemma widened_restore (opts : gmap string pyvalue) (old : pyvalue) :
  opts !! max_colwidth_key = Some old ->
  <[max_colwidth_key := old]> (widened opts) = opts.
Proof.
  intros Hold. unfold widened. rewrite insert_insert_eq. apply insert_id, Hold.
Qed.

(** The keyword arguments built from the tile-bearing columns and the
    three options passed through. *)
Lemma formatters_lookup `{Matplotlib} (tile_cols : list string) (c : string) :
  (list_to_map ((fun c => (c, _safe_tile_to_html)) <$> tile_cols)
     : gmap string (cell -> result string)) !! c
  = if decide (c ∈ tile_cols) then Some _safe_tile_to_html else None.
Proof.
  induction tile_cols as [|d tl IH]; cbn [fmap list_fmap list_to_map foldr].
  - rewrite lookup_empty. case_decide as Hin; [inversion Hin | reflexivity].
  - cbn. destruct (decide (d = c)) as [->|Hne].
    + rewrite lookup_insert_eq. rewrite decide_True by constructor. reflexivity.
    + rewrite lookup_insert_ne by exact Hne. rewrite IH.
      destruct (decide (c ∈ tl)) as [Hin|Hin].
      * rewrite decide_True by (constructor; exact Hin). reflexivity.
      * rewrite decide_False; [reflexivity|].
        intros Hc. apply elem_of_cons in Hc as [->|Hc]; [apply Hne; reflexivity | exact (Hin Hc)].
Qed.

(** One run on a frame with rows, HTML repr enabled: the single call to
    [to_html] and the two ways out of it. *)
Lemma pandas_df_to_html_run `{Matplotlib} `{Pandas} (df : DataFrame) (w : World)
    (tile_cols : list string) (old vr vc vd : pyvalue) :
  html_enabled w ->
  len df <> 0%nat ->
  find_tile_cols df (columns df) [] = Ok tile_cols ->
  options w !! max_colwidth_key = Some old ->
  options w !! "display.max_rows" = Some vr ->
  options w !! "display.max_columns" = Some vc ->
  options w !! "display.show_dimensions" = Some vd ->
  let kw := {| escape := false;
               formatters := list_to_map ((fun c => (c, _safe_tile_to_html)) <$> tile_cols);
               render_links := true;
               notebook := true;
               max_rows := vr;
               max_cols := vc;
               show_dimensions := vd |} in
  let trace := rendered w ++ [EvToHtml df kw (widened (options w))] in
  pandas_df_to_html df w =
  match df_to_html df kw (widened (options w)) with
  | Ok html => ({| options := options w; rendered := trace |}, Ok (Some html))
  | Raise e => ({| options := widened (options w); rendered := trace |}, Raise e)
  end.
Proof.
  intros (flag & Hflag & Htrue) Hlen Htc Hold Hr Hc Hd kw trace.
  unfold pandas_df_to_html.
  unfold bind at 1. unfold get_option at 1. rewrite Hflag, Htrue. cbn [negb].
  destruct (Nat.eqb_spec (len df) 0) as [E|_]; [contradiction|].
  rewrite Htc. unfold bind at 1, lift.
  unfold bind at 1. unfold get_option at 1. rewrite Hold.
  unfold bind at 1. unfold set_option at 1. rewrite Hold.
  change (<[max_colwidth_key:=VInt (-1)]> (options w)) with (widened (options w)).
  unfold bind at 1. unfold get_option at 1. cbn [options].
  rewrite widened_other, Hr by (symmetry; apply max_colwidth_key_ne; cbn; tauto).
  unfold bind at 1. unfold get_option at 1. cbn [options].
  rewrite widened_other, Hc by (symmetry; apply max_colwidth_key_ne; cbn; tauto).
  unfold bind at 1. unfold get_option at 1. cbn [options].
  rewrite widened_other, Hd by (symmetry; apply max_colwidth_key_ne; cbn; tauto).
  unfold bind at 1. unfold call_to_html. cbn [options rendered].
  fold kw. fold trace.
  destruct (df_to_html df kw (widened (options w))) as [html|e]; [|reflexivity].
  unfold bind, set_option, ret. cbn [options rendered].
  unfold widened at 1. rewrite lookup_insert_eq.
  rewrite (widened_restore _ _ Hold). reflexivity.
Qed.




(** C6: with the notebook HTML repr option disabled the formatter returns
    [None] whatever the frame holds; no renderer is called and no option
    is written: the process-wide state is left as it was. *)
Theorem pandas_df_to_html_disabled `{Matplotlib} `{Pandas} (df : DataFrame)
    (w : World) (flag : pyvalue) :
  options w !! "display.notebook_repr_html" = Some flag ->
  truthy flag = false ->
  pandas_df_to_html df w = (w, Ok None).
Proof.
  intros Hflag Hfalse. unfold pandas_df_to_html, bind, get_option.
  rewrite Hflag, Hfalse. reflexivity.
Qed.

(** C5: on a frame with zero rows (HTML repr enabled) the formatter
    returns what the frame's own [_repr_html_] returns; that is the only
    renderer call made and no option is written. *)
Theorem pandas_df_to_html_empty `{Matplotlib} `{Pandas} (df : DataFrame) (w : World) :
  html_enabled w ->
  len df = 0%nat ->
  pandas_df_to_html df w =
  ({| options := options w;
      rendered := rendered w ++ [EvReprHtml df (options w)] |},
   rmap Some (df_repr_html df (options w))).
Proof.
  intros (flag & Hflag & Htrue) Hlen.
  unfold pandas_df_to_html. unfold bind at 1. unfold get_option.
  rewrite Hflag, Htrue, Hlen. cbn [negb Nat.eqb].
  unfold bind, call_repr_html, ret.
  destruct (df_repr_html df (options w)); reflexivity.
Qed.



(** C1: the column width is saved, set to -1 for the call to [to_html] and
    put back only when that call returns.  On a one-row frame whose tile
    has no cell grid the installed formatter raises inside [to_html]; the
    error propagates and the option, 50 before the call, is -1 after it. *)
Theorem max_colwidth_not_restored_on_error :
  options (Samples.world true) !! max_colwidth_key = Some (VInt 50) /\
  snd (@pandas_df_to_html Samples.agg Samples.pandas Samples.df_no_cells
         (Samples.world true)) = Raise TypeError /\
  options (fst (@pandas_df_to_html Samples.agg Samples.pandas Samples.df_no_cells
                  (Samples.world true))) !! max_colwidth_key = Some (VInt (-1)).
Proof. vm_compute. repeat split. Qed.

(** ** The statements at concrete tiles and frames *)

Lemma world_enabled : html_enabled (Samples.world true).
Proof. exists (VBool true). split; vm_compute; reflexivity. Qed.

Lemma world_registered : options_registered (Samples.world true).
Proof. repeat split; vm_compute; eexists; reflexivity. Qed.


Lemma tile_to_png_absent_cells_witness :
  cells Samples.tile_no_cells = None /\
  @tile_to_png Samples.agg Samples.tile_no_cells = Ok None.
Proof.
  split; [reflexivity|].
  apply (@tile_to_png_absent_cells Samples.agg Samples.tile_no_cells). reflexivity.
Defined.

Lemma tile_to_html_absent_cells_raises_witness :
  cells Samples.tile_no_cells = None /\
  @tile_to_png Samples.agg Samples.tile_no_cells = Ok None /\
  @tile_to_html Samples.agg Samples.tile_no_cells = Raise TypeError.
Proof.
  split; [reflexivity|].
  apply (@tile_to_html_absent_cells_raises Samples.agg Samples.tile_no_cells).
  reflexivity.
Defined.




Lemma pandas_df_to_html_disabled_witness :
  options (Samples.world false) !! "display.notebook_repr_html" = Some (VBool false) /\
  truthy (VBool false) = false /\
  @pandas_df_to_html Samples.agg Samples.pandas Samples.df_mixed (Samples.world false)
    = (Samples.world false, Ok None).
Proof.
  split; [vm_compute; reflexivity|]. split; [reflexivity|].
  apply (@pandas_df_to_html_disabled Samples.agg Samples.pandas Samples.df_mixed
           (Samples.world false) (VBool false));
    [vm_compute; reflexivity | reflexivity].
Defined.

Lemma pandas_df_to_html_empty_witness :
  html_enabled (Samples.world true) /\
  len Samples.df_empty = 0%nat /\
  @pandas_df_to_html Samples.agg Samples.pandas Samples.df_empty (Samples.world true) =
  ({| options := options (Samples.world true);
      rendered := rendered (Samples.world true)
                  ++ [EvReprHtml Samples.df_empty (options (Samples.world true))] |},
   rmap Some (@df_repr_html Samples.pandas Samples.df_empty
                (options (Samples.world true)))).
Proof.
  split; [exact world_enabled|]. split; [reflexivity|].
  apply (@pandas_df_to_html_empty Samples.agg Samples.pandas Samples.df_empty
           (Samples.world true)); [exact world_enabled | reflexivity].
Defined.



(** * Further properties *)

(** ** Strings and base64 text *)

Lemma length_append (a b : string) :
  String.length (a +:+ b) = (String.length a + String.length b)%nat.
Proof.
  induction a as [|c a IH]; [reflexivity|].
  change (String c a +:+ b) with (String c (a +:+ b)).
  cbn [String.length]. rewrite IH. reflexivity.
Qed.

Lemma list_ascii_append (a b : string) :
  list_ascii_of_string (a +:+ b) = list_ascii_of_string a ++ list_ascii_of_string b.
Proof.
  induction a as [|c a IH]; [reflexivity|].
  change (String c a +:+ b) with (String c (a +:+ b)).
  cbn [list_ascii_of_string]. rewrite IH. reflexivity.
Qed.

Lemma list_ascii_inj (a b : string) :
  list_ascii_of_string a = list_ascii_of_string b -> a = b.
Proof.
  intros E. rewrite <- (string_of_list_ascii_of_string a),
    <- (string_of_list_ascii_of_string b), E. reflexivity.
Qed.

Lemma img_tag_inj (d1 d2 : string) : img_tag d1 = img_tag d2 -> d1 = d2.
Proof.
  unfold img_tag. intros E. apply (f_equal list_ascii_of_string) in E.
  rewrite !list_ascii_append in E.
  do 2 apply app_inv_head in E. apply app_inv_tail in E.
  apply list_ascii_inj, E.
Qed.

Lemma length_string_of_list_byte (bs : list byte) :
  String.length (string_of_list_byte bs) = length bs.
Proof.
  induction bs as [|b bs IH]; [reflexivity|].
  rewrite string_of_list_byte_cons. cbn. rewrite IH. reflexivity.
Qed.

Lemma length_b64encode (bs : list byte) :
  length (Base64.b64encode bs) = (4 * ((length bs + 2) / 3))%nat.
Proof.
  induction bs as [|a|a b|a b c rest IH] using list_ind3; try reflexivity.
  rewrite b64encode_cons3, List.length_app, IH.
  change (length (Base64.group3 a b c)) with 4%nat.
  change (length (a :: b :: c :: rest)) with (3 + length rest)%nat.
  replace (3 + length rest + 2)%nat with (1 * 3 + (length rest + 2))%nat by lia.
  rewrite Nat.div_add_l by discriminate. lia.
Qed.

Lemma b64_text_of_bytes (bs : list byte) :
  Forall (fun ch => In ch (Base64.pad :: Base64.alphabet)) bs ->
  Forall (fun ch => In ch (list_ascii_of_string b64_text_chars))
    (list_ascii_of_string (string_of_list_byte bs)).
Proof.
  induction 1 as [|b bs Hb _ IH]; [constructor|].
  rewrite string_of_list_byte_cons. cbn [list_ascii_of_string].
  constructor; [|exact IH].
  assert (Hall : forallb
            (fun x => bool_decide
               (In (ascii_of_byte x) (list_ascii_of_string b64_text_chars)))
            (Base64.pad :: Base64.alphabet) = true) by (vm_compute; reflexivity).
  rewrite forallb_forall in Hall. apply Hall in Hb.
  apply bool_decide_eq_true_1 in Hb. exact Hb.
Qed.

(** ** tile_to_png and tile_to_html, continued *)

(** X1: tile_to_png returns [None] exactly for tiles without a cell grid. *)
Theorem tile_to_png_None_iff `{Matplotlib} (tile : Tile) :
  tile_to_png tile = Ok None <-> cells tile = None.
Proof.
  split.
  - destruct (cells tile) as [grid|] eqn:Hc; [|reflexivity].
    destruct (tile_to_png_present tile grid Hc) as [[e ->] | [png ->]]; discriminate.
  - intros Hc. unfold tile_to_png. rewrite Hc. reflexivity.
Qed.

(** X3: tile_to_html fails exactly as tile_to_png fails, raises TypeError
    when tile_to_png returns [None], and otherwise wraps the base64 text of
    the bytes in the [<img>] element. *)
Theorem tile_to_html_cases `{Matplotlib} (tile : Tile) :
  tile_to_html tile =
  match tile_to_png tile with
  | Raise e => Raise e
  | Ok None => Raise TypeError
  | Ok (Some png) => Ok (img_tag (string_of_list_byte (Base64.b64encode png)))
  end.
Proof.
  destruct (tile_to_png tile) as [[png|]|e] eqn:Hpng.
  - exact (tile_to_html_of_png tile png Hpng).
  - unfold tile_to_html. rewrite Hpng. reflexivity.
  - unfold tile_to_html. rewrite Hpng. reflexivity.
Qed.

(** X4: the HTML for an image of n bytes is 36 + 4 * ceil(n / 3)
    characters long. *)
Theorem tile_to_html_length `{Matplotlib} (tile : Tile) (png : list byte) :
  tile_to_png tile = Ok (Some png) ->
  exists html,
    tile_to_html tile = Ok html /\
    String.length html = (36 + 4 * ((length png + 2) / 3))%nat.
Proof.
  intros Hpng. eexists. split; [exact (tile_to_html_of_png tile png Hpng)|].
  rewrite !length_append, length_string_of_list_byte, length_b64encode.
  cbn [String.length]. lia.
Qed.

(** X5: the text between the quotes of the [src] attribute is made of
    base64 characters only; in particular it holds no double quote. *)
Theorem tile_to_html_payload_chars `{Matplotlib} (tile : Tile) (png : list byte) :
  tile_to_png tile = Ok (Some png) ->
  exists data,
    tile_to_html tile = Ok (img_tag data) /\
    Forall (fun ch => In ch (list_ascii_of_string b64_text_chars))
      (list_ascii_of_string data) /\
    ~ In dquote (list_ascii_of_string data).
Proof.
  intros Hpng. exists (string_of_list_byte (Base64.b64encode png)).
  split; [exact (tile_to_html_of_png tile png Hpng)|].
  pose proof (b64_text_of_bytes _ (b64encode_chars png)) as Hall.
  split; [exact Hall|].
  intros Hin. rewrite Forall_forall in Hall. apply list_elem_of_In in Hin.
  apply Hall in Hin. revert Hin. apply (bool_decide_eq_false_1 _).
  vm_compute. reflexivity.
Qed.

(** X6: two tiles whose images differ get different HTML. *)
Theorem tile_to_html_injective `{Matplotlib} (t1 t2 : Tile) (p1 p2 : list byte) :
  tile_to_png t1 = Ok (Some p1) ->
  tile_to_png t2 = Ok (Some p2) ->
  tile_to_html t1 = tile_to_html t2 ->
  p1 = p2.
Proof.
  intros H1 H2 E.
  rewrite (tile_to_html_of_png t1 p1 H1), (tile_to_html_of_png t2 p2 H2) in E.
  apply (f_equal (fun r => match r with Ok html => html | Raise _ => EmptyString end)) in E.
  apply (img_tag_inj (string_of_list_byte _) (string_of_list_byte _)) in E.
  apply (f_equal list_byte_of_string) in E.
  rewrite !list_byte_of_string_of_list_byte in E.
  apply (f_equal Base64.b64decode) in E.
  rewrite !b64decode_b64encode in E. congruence.
Qed.

(** ** pandas_df_to_html, continued *)




Lemma run_outcome_rect `{Matplotlib} `{Pandas} (df : DataFrame) (w : World)
    (r0 : list cell) (later : list (list cell)) :
  html_enabled w -> options_registered w -> rectangular df -> rows df = r0 :: later ->
  exists kw,
    (forall c, formatters kw !! c =
       if decide (c ∈ List.filter (tile_at (zip (columns df) r0)) (columns df))
       then Some _safe_tile_to_html else None) /\
    rendered (fst (pandas_df_to_html df w)) =
      rendered w ++ [EvToHtml df kw (widened (options w))].
Proof.
  intros Hen ([old Hold] & [vr Hr] & [vc Hc] & [vd Hd]) Hrect Hrows.
  assert (Hlen : len df <> 0%nat) by (unfold len; rewrite Hrows; discriminate).
  pose proof (find_tile_cols_row0 df r0 later Hrows (rect_row0 df r0 later Hrect Hrows))
    as Htc.
  eexists. split; cycle 1.
  - rewrite (pandas_df_to_html_run df w _ old vr vc vd Hen Hlen Htc Hold Hr Hc Hd).
    destruct (df_to_html _ _ _); reflexivity.
  - intros c. cbn [formatters]. apply formatters_lookup.
Qed.

(** X10: a formatter is installed for a label exactly when that label
    names one single column and the row-0 value of that column is a
    Tile; no other label gets a formatter, in particular none that names
    several columns. *)
Theorem formatters_exactly_tile_columns `{Matplotlib} `{Pandas} (df : DataFrame)
    (w : World) (r0 : list cell) (later : list (list cell)) :
  html_enabled w -> options_registered w -> rectangular df -> rows df = r0 :: later ->
  exists kw,
    rendered (fst (pandas_df_to_html df w)) =
      rendered w ++ [EvToHtml df kw (widened (options w))] /\
    forall c,
      is_Some (formatters kw !! c) <->
      exists i t, columns df !! i = Some c /\ r0 !! i = Some (CTile t) /\
                  forall j, columns df !! j = Some c -> j = i.
Proof.
  intros Hen Hreg Hrect Hrows.
  destruct (run_outcome_rect df w r0 later Hen Hreg Hrect Hrows) as (kw & Hfmt & Hev).
  exists kw. split; [exact Hev|].
  pose proof (rect_row0 df r0 later Hrect Hrows) as Hlen.
  intros c. rewrite Hfmt, <- (tile_at_iff (columns df) r0 c Hlen).
  case_decide as Hin; split.
  - intros _. apply list_elem_of_In, filter_In in Hin as [_ Ht]. exact Ht.
  - intros _. eauto.
  - intros [f Hf]. discriminate.
  - intros Ht. exfalso. apply Hin. apply list_elem_of_In, filter_In.
    split; [|exact Ht].
    apply (tile_at_iff (columns df) r0 c Hlen) in Ht as (i & t & Hi & _).
    apply list_elem_of_In. eapply list_elem_of_lookup_2. exact Hi.
Qed.

(** X11: one call of the formatter calls at most one of pandas' renderers:
    [_repr_html_] only on a frame without rows and under the options as
    they are, [to_html] only on a frame with rows and under the unbounded
    column width. *)
Theorem at_most_one_renderer_call `{Matplotlib} `{Pandas} (df : DataFrame) (w : World) :
  exists evs,
    rendered (fst (pandas_df_to_html df w)) = rendered w ++ evs /\
    (evs = [] \/
     (evs = [EvReprHtml df (options w)] /\ len df = 0%nat) \/
     (exists kw, evs = [EvToHtml df kw (widened (options w))] /\ len df <> 0%nat)).
Proof.
  unfold pandas_df_to_html, bind, get_option, set_option, call_repr_html,
    call_to_html, lift, ret.
  repeat (case_match; simplify_eq/=);
    try (exists []; rewrite app_nil_r; split; [reflexivity | left; reflexivity]);
    try (eexists; split; [reflexivity|]; right; left; split;
         [reflexivity | apply Nat.eqb_eq; assumption]);
    try (eexists; split; [reflexivity|]; right; right; eexists; split;
         [reflexivity | apply Nat.eqb_neq; assumption]).
Qed.

(** X12: the formatter returns [None] only when the notebook HTML repr
    option is off, and then it has changed nothing. *)
Theorem None_only_when_disabled `{Matplotlib} `{Pandas} (df : DataFrame) (w : World) :
  snd (pandas_df_to_html df w) = Ok None ->
  fst (pandas_df_to_html df w) = w /\
  exists flag,
    options w !! "display.notebook_repr_html" = Some flag /\ truthy flag = false.
Proof.
  unfold pandas_df_to_html, bind, get_option, set_option, call_repr_html,
    call_to_html, lift, ret.
  repeat (case_match; simplify_eq/=); try discriminate.
  intros _. split; [reflexivity|]. eexists. split; [reflexivity|].
  apply negb_true_iff. assumption.
Qed.




(** ** Registration at import time *)

(** X15: without IPython, without a running shell, or without pandas,
    importing the module succeeds and registers nothing. *)
Theorem load_module_outside_notebook (py : Interpreter) :
  ipython_importable py = false \/ running_shell py = None \/
    pandas_importable py = false ->
  load_module py = inr py.
Proof.
  unfold load_module, register_formatter.
  intros [Hi | [Hs | Hp]].
  - rewrite Hi. reflexivity.
  - rewrite Hs. destruct (ipython_importable py); reflexivity.
  - rewrite Hp. destruct (ipython_importable py); [|reflexivity].
    destruct (running_shell py); reflexivity.
Qed.

(** X16: in a running shell with an HTML formatter, importing the module
    makes [pandas_df_to_html] the HTML renderer of [pandas.DataFrame],
    leaves the renderer of every other type and MIME type as it was, and
    importing it again changes nothing more. *)
Theorem load_module_registers (py : Interpreter) (shell : Shell)
    (html_formatter : gmap string handler) :
  ipython_importable py = true ->
  running_shell py = Some shell ->
  pandas_importable py = true ->
  display_formatters shell !! "text/html" = Some html_formatter ->
  exists py',
    load_module py = inr py' /\
    registered_handler py' "text/html" dataframe_type = Some PandasDfToHtml /\
    (forall mime typ,
       (mime, typ) <> ("text/html", dataframe_type) ->
       registered_handler py' mime typ = registered_handler py mime typ) /\
    load_module py' = inr py'.
Proof.
  intros Hi Hs Hp Hfmt. unfold load_module, register_formatter.
  rewrite Hi, Hs, Hp, Hfmt. cbn [negb]. eexists. split; [reflexivity|].
  unfold registered_handler. cbn [running_shell display_formatters negb].
  rewrite Hs. split; [|split].
  - rewrite lookup_insert_eq. apply lookup_insert_eq.
  - intros mime typ Hne. destruct (decide (mime = "text/html")) as [->|Hm].
    + rewrite lookup_insert_eq, Hfmt. apply lookup_insert_ne.
      intros <-. apply Hne. reflexivity.
    + rewrite lookup_insert_ne by congruence. reflexivity.
  - cbn [ipython_importable pandas_importable negb]. rewrite lookup_insert_eq.
    unfold for_type. rewrite !insert_insert_eq. reflexivity.
Qed.

(** ** The further statements at concrete values *)


Lemma tile_to_html_length_witness :
  @tile_to_png Samples.agg Samples.tile_2x3 = Ok (Some Samples.png_bytes) /\
  exists html,
    @tile_to_html Samples.agg Samples.tile_2x3 = Ok html /\
    String.length html = (36 + 4 * ((length Samples.png_bytes + 2) / 3))%nat.
Proof.
  split; [reflexivity|].
  apply (@tile_to_html_length Samples.agg Samples.tile_2x3 Samples.png_bytes).
  reflexivity.
Defined.

Lemma tile_to_html_payload_chars_witness :
  @tile_to_png Samples.agg Samples.tile_2x3 = Ok (Some Samples.png_bytes) /\
  exists data,
    @tile_to_html Samples.agg Samples.tile_2x3 = Ok (img_tag data) /\
    Forall (fun ch => In ch (list_ascii_of_string b64_text_chars))
      (list_ascii_of_string data) /\
    ~ In dquote (list_ascii_of_string data).
Proof.
  split; [reflexivity|].
  apply (@tile_to_html_payload_chars Samples.agg Samples.tile_2x3 Samples.png_bytes).
  reflexivity.
Defined.

Lemma tile_to_html_injective_witness :
  @tile_to_png Samples.agg Samples.tile_2x3 = Ok (Some Samples.png_bytes) /\
  @tile_to_png Samples.agg Samples.tile_256 = Ok (Some Samples.png_bytes) /\
  @tile_to_html Samples.agg Samples.tile_2x3 = @tile_to_html Samples.agg Samples.tile_256 /\
  Samples.png_bytes = Samples.png_bytes.
Proof.
  split; [reflexivity|]. split; [reflexivity|]. split; [reflexivity|].
  apply (@tile_to_html_injective Samples.agg Samples.tile_2x3 Samples.tile_256
           Samples.png_bytes Samples.png_bytes); reflexivity.
Defined.



Lemma df_dup_rectangular : rectangular MoreSamples.df_dup.
Proof. repeat constructor. Qed.

Lemma formatters_exactly_tile_columns_witness :
  html_enabled (Samples.world true) /\
  options_registered (Samples.world true) /\
  rectangular MoreSamples.df_dup /\
  rows MoreSamples.df_dup
    = [CTile Samples.tile_2x3; CTile Samples.tile_2x3] :: [] /\
  exists kw,
    rendered (fst (@pandas_df_to_html Samples.agg Samples.pandas MoreSamples.df_dup
                     (Samples.world true))) =
      rendered (Samples.world true)
      ++ [EvToHtml MoreSamples.df_dup kw (widened (options (Samples.world true)))] /\
    forall c,
      is_Some (formatters kw !! c) <->
      exists i t, columns MoreSamples.df_dup !! i = Some c /\
                  [CTile Samples.tile_2x3; CTile Samples.tile_2x3] !! i = Some (CTile t) /\
                  forall j, columns MoreSamples.df_dup !! j = Some c -> j = i.
Proof.
  split; [exact world_enabled|]. split; [exact world_registered|].
  split; [exact df_dup_rectangular|]. split; [reflexivity|].
  apply (@formatters_exactly_tile_columns Samples.agg Samples.pandas MoreSamples.df_dup
           (Samples.world true) [CTile Samples.tile_2x3; CTile Samples.tile_2x3] []);
    [exact world_enabled | exact world_registered | exact df_dup_rectangular
    | reflexivity].
Defined.

Lemma None_only_when_disabled_witness :
  snd (@pandas_df_to_html Samples.agg Samples.pandas Samples.df_mixed
         (Samples.world false)) = Ok None /\
  fst (@pandas_df_to_html Samples.agg Samples.pandas Samples.df_mixed
         (Samples.world false)) = Samples.world false /\
  exists flag,
    options (Samples.world false) !! "display.notebook_repr_html" = Some flag /\
    truthy flag = false.
Proof.
  split; [vm_compute; reflexivity|].
  apply (@None_only_when_disabled Samples.agg Samples.pandas Samples.df_mixed
           (Samples.world false)). vm_compute. reflexivity.
Defined.


Lemma load_module_outside_notebook_witness :
  (ipython_importable MoreSamples.script = false \/
   running_shell MoreSamples.script = None \/
   pandas_importable MoreSamples.script = false) /\
  load_module MoreSamples.script = inr MoreSamples.script.
Proof.
  split; [right; left; reflexivity|].
  apply (load_module_outside_notebook MoreSamples.script). right. left. reflexivity.
Defined.

Lemma load_module_registers_witness :
  ipython_importable MoreSamples.notebook = true /\
  running_shell MoreSamples.notebook = Some MoreSamples.shell /\
  pandas_importable MoreSamples.notebook = true /\
  display_formatters MoreSamples.shell !! "text/html"
    = Some {[ "builtins.float" := Foreign "float_html" ]} /\
  exists py',
    load_module MoreSamples.notebook = inr py' /\
    registered_handler py' "text/html" dataframe_type = Some PandasDfToHtml /\
    (forall mime typ,
       (mime, typ) <> ("text/html", dataframe_type) ->
       registered_handler py' mime typ = registered_handler MoreSamples.notebook mime typ) /\
    load_module py' = inr py'.
Proof.
  split; [reflexivity|]. split; [reflexivity|]. split; [reflexivity|].
  split; [vm_compute; reflexivity|].
  apply (load_module_registers MoreSamples.notebook MoreSamples.shell
           {[ "builtins.float" := Foreign "float_html" ]});
    [reflexivity | reflexivity | reflexivity | vm_compute; reflexivity].
Defined.
